(** * Grading thunk actions of the ORA grading front-end

    Shallow embedding of [src/data/redux/thunkActions/grading.js]: the
    redux-thunk coordinators that fetch submissions, prefetch queue
    neighbours, lock and unlock a submission and submit a grade.

    A thunk is a function of [(dispatch, getState)]; it is embedded as a
    state-passing computation over the store that also records, in order,
    every plain action it dispatched and every request it issued.  The
    callbacks handed to the request layer are kept as functions inside the
    recorded request, so that what happens when a request resolves can be
    stated about the very closure the thunk built. *)

From stdpp Require Import gmap strings list fin_maps.

Set Warnings "-register-all".

(** ** JavaScript values and objects *)

(** The values that travel through this module: submission ids, grade data
    and the fields of a response. *)
Inductive JsVal : Type :=
| JUndefined
| JNull
| JBool (b : bool)
| JNum (n : Z)
| JStr (s : string)
| JObj (fields : list (string * JsVal)).

(** JavaScript truthiness, as tested by [!gradeData]. *)
Definition truthy (v : JsVal) : bool :=
  match v with
  | JUndefined | JNull => false
  | JBool b => b
  | JNum n => negb (n =? 0)%Z
  | JStr s => negb (String.eqb s "")
  | JObj _ => true
  end.

(** A response payload is a JS object used as a record of named fields. *)
Abbreviation Response := (gmap string JsVal).

(** [response.key]: a missing property reads as [undefined]. *)
Definition prop (response : Response) (key : string) : JsVal :=
  default JUndefined (response !! key).

(** [{ ...response, key: v }]: the spread copy with [key] overridden. *)
Definition spread_with (response : Response) (key : string) (v : JsVal) : Response :=
  <[key := v]> response.

(** [xs[i]] on a JS array: out of range reads as [undefined]. *)
Definition js_index (xs : list JsVal) (i : nat) : JsVal :=
  default JUndefined (xs !! i).

(** ** Collaborators: request keys, actions, selectors *)

Module RequestKeys.
  (** The two keys of [data/constants/requests] this module names. *)
Inductive t : Type := prefetchNext | prefetchPrev.
End RequestKeys.

(** The plain action objects the store receives, one constructor per action
    type, carrying the payload. *)
Inductive Action : Type :=
| PreloadNext (payload : Response)
| PreloadPrev (payload : Response)
| LoadNext (payload : Response)
| LoadPrev (payload : Response)
| UpdateSelection (submissionUUIDs : list JsVal)
| LoadSubmission (payload : Response)
| StartGrading (payload : Response)
| StopGrading
| SetShowValidation (show : bool)
| CompleteGrading (payload : Response)
| SetShowReview (show : bool)
| SetShowRubric (show : bool).

(** What [dispatch] accepts under the redux-thunk middleware: a plain action
    or a thunk. *)
Inductive Dispatchable (T : Type) : Type :=
| Plain (a : Action)
| Thk (t : T).
Arguments Plain {T} a.
Arguments Thk {T} t.

(** The action creators of [actions.grading] and [actions.app]. *)
Module actions.
Section Creators.
Context {T : Type}.
Definition grading_preloadNext (response : Response) : Dispatchable T :=
      Plain (PreloadNext response).
Definition grading_preloadPrev (response : Response) : Dispatchable T :=
      Plain (PreloadPrev response).
Definition grading_loadNext (payload : Response) : Dispatchable T :=
      Plain (LoadNext payload).
Definition grading_loadPrev (payload : Response) : Dispatchable T :=
      Plain (LoadPrev payload).
Definition grading_updateSelection (submissionUUIDs : list JsVal) : Dispatchable T :=
      Plain (UpdateSelection submissionUUIDs).
Definition grading_loadSubmission (payload : Response) : Dispatchable T :=
      Plain (LoadSubmission payload).
Definition grading_startGrading (payload : Response) : Dispatchable T :=
      Plain (StartGrading payload).
Definition grading_stopGrading (_ : unit) : Dispatchable T :=
      Plain StopGrading.
Definition grading_setShowValidation (show : bool) : Dispatchable T :=
      Plain (SetShowValidation show).
Definition grading_completeGrading (response : Response) : Dispatchable T :=
      Plain (CompleteGrading response).
Definition app_setShowReview (show : bool) : Dispatchable T :=
      Plain (SetShowReview show).
Definition app_setShowRubric (show : bool) : Dispatchable T :=
      Plain (SetShowRubric show).
End Creators.
End actions.

(** The store as this module sees it: a state, the root reducer that applies
    a plain action, and the read-only selectors the thunks call.  All of it
    lives outside [thunkActions/grading.js], so it is an interface here. *)
Module selectors.
Class Store : Type := {
    State : Type;
    reducer : State -> Action -> State;
    grading_next_doesExist : State -> bool;
    grading_next_submissionUUID : State -> JsVal;
    grading_prev_doesExist : State -> bool;
    grading_prev_submissionUUID : State -> JsVal;
    grading_selected_submissionUUID : State -> JsVal;
    grading_selected_gradingData : State -> JsVal;
    grading_validation_isValidForSubmit : State -> bool;
    app_emptyGrade : State -> JsVal;
  }.
End selectors.

(** ** Requests and effects *)

(** The argument objects of the five request creators; [K] is the type of
    the callbacks. *)
Inductive Request (K : Type) : Type :=
| FetchSubmissionResponse (requestKey : RequestKeys.t) (submissionUUID : JsVal)
    (onSuccess : Response -> K)
| FetchSubmissionStatus (submissionUUID : JsVal) (onSuccess : Response -> K)
| FetchSubmission (submissionUUID : JsVal) (onSuccess : Response -> K)
| SetLock (value : bool) (submissionUUID : JsVal) (onSuccess : Response -> K)
| SubmitGrade (submissionUUID : JsVal) (gradeData : JsVal)
    (onSuccess : Response -> K) (onFailure : JsVal -> K).
Arguments FetchSubmissionResponse {K}.
Arguments FetchSubmissionStatus {K}.
Arguments FetchSubmission {K}.
Arguments SetLock {K}.
Arguments SubmitGrade {K}.

(** What goes over the wire for a request: its kind and data, without the
    callbacks. *)
Inductive Call : Type :=
| CallFetchSubmissionResponse (requestKey : RequestKeys.t) (submissionUUID : JsVal)
| CallFetchSubmissionStatus (submissionUUID : JsVal)
| CallFetchSubmission (submissionUUID : JsVal)
| CallSetLock (value : bool) (submissionUUID : JsVal)
| CallSubmitGrade (submissionUUID : JsVal) (gradeData : JsVal).

Definition call_of {K} (r : Request K) : Call :=
  match r with
  | FetchSubmissionResponse k u _ => CallFetchSubmissionResponse k u
  | FetchSubmissionStatus u _ => CallFetchSubmissionStatus u
  | FetchSubmission u _ => CallFetchSubmission u
  | SetLock v u _ => CallSetLock v u
  | SubmitGrade u g _ _ => CallSubmitGrade u g
  end.

Definition onSuccess_of {K} (r : Request K) : Response -> K :=
  match r with
  | FetchSubmissionResponse _ _ k
  | FetchSubmissionStatus _ k
  | FetchSubmission _ k
  | SetLock _ _ k
  | SubmitGrade _ _ k _ => k
  end.

(** Only the submit request is handed a failure callback. *)
Definition onFailure_of {K} (r : Request K) : option (JsVal -> K) :=
  match r with
  | SubmitGrade _ _ _ k => Some k
  | _ => None
  end.

Section Redux.
Context `{store : selectors.Store}.
Import selectors.

  (** One entry of the trace of a run: a plain action applied to the store,
      or a request handed to the request layer together with its callbacks. *)
Inductive Effect : Type :=
  | Dispatched (a : Action)
  | Issued (r : Request (State -> unit * State * list Effect)).

  (** Computations over the store that log their effects. *)
Definition M (A : Type) : Type := State -> A * State * list Effect.

#[export] Instance M_ret : MRet M := fun A a s => (a, s, []).
#[export] Instance M_bind : MBind M := fun A B f m s =>
    let '(a, s1, t1) := m s in
    let '(b, s2, t2) := f a s1 in
    (b, s2, t1 ++ t2).

  (** The body of a thunk, [(dispatch, getState) => { ... }]. *)
Definition Thunk : Type := M unit.

  (** [getState()]: the state of the store at the moment of the call. *)
Definition getState : M State := fun s => (s, s, []).

  (** [dispatch(x)]: a plain action goes through the reducer, a thunk is
      run against the same store. *)
Definition dispatch (x : Dispatchable Thunk) : Thunk :=
    match x with
    | Plain a => fun s => (tt, reducer s a, [Dispatched a])
    | Thk t => t
    end.

  (** Modelled from the spec: the request layer ([./requests], not part of
      the sources at hand) "issues a named asynchronous request ... and
      invokes a success or failure callback with the response".  Issuing is
      recorded in the trace and leaves the store as it is; the resolution is
      the later run of [onSuccess_of] or [onFailure_of]. *)
Definition issue (r : Request Thunk) : Dispatchable Thunk :=
    Thk (fun s => (tt, s, [Issued r])).

  (** The observable shape of a trace. *)
Inductive Event : Type :=
  | EvAction (a : Action)
  | EvCall (c : Call).

Definition event_of (e : Effect) : Event :=
    match e with
    | Dispatched a => EvAction a
    | Issued r => EvCall (call_of r)
    end.

Definition events (tr : list Effect) : list Event := map event_of tr.

  (** The requests of a trace still waiting for their response. *)
Definition pending (tr : list Effect) : list (Request Thunk) :=
    omap (fun e => match e with Issued r => Some r | Dispatched _ => None end) tr.

Definition calls (tr : list Effect) : list Call := map call_of (pending tr).

Definition dispatched (tr : list Effect) : list Action :=
    omap (fun e => match e with Dispatched a => Some a | Issued _ => None end) tr.

  (** [store.dispatch(x)] from state [s]: the state left and the trace. *)
Definition run (x : Dispatchable Thunk) (s : State) : State * list Effect :=
    let '(_, s', tr) := dispatch x s in (s', tr).
End Redux.

Arguments Effect : clear implicits.
Arguments Effect {store}.

(** ** The request creators of [./requests] *)

Module requests.
Section Creators.
Context `{store : selectors.Store}.

Definition fetchSubmissionResponse (requestKey : RequestKeys.t)
    (submissionUUID : JsVal) (onSuccess : Response -> Thunk) : Dispatchable Thunk :=
  issue (FetchSubmissionResponse requestKey submissionUUID onSuccess).

Definition fetchSubmissionStatus (submissionUUID : JsVal)
    (onSuccess : Response -> Thunk) : Dispatchable Thunk :=
  issue (FetchSubmissionStatus submissionUUID onSuccess).

Definition fetchSubmission (submissionUUID : JsVal)
    (onSuccess : Response -> Thunk) : Dispatchable Thunk :=
  issue (FetchSubmission submissionUUID onSuccess).

Definition setLock (value : bool) (submissionUUID : JsVal)
    (onSuccess : Response -> Thunk) : Dispatchable Thunk :=
  issue (SetLock value submissionUUID onSuccess).

Definition submitGrade (submissionUUID gradeData : JsVal)
    (onSuccess : Response -> Thunk) (onFailure : JsVal -> Thunk) : Dispatchable Thunk :=
  issue (SubmitGrade submissionUUID gradeData onSuccess onFailure).

End Creators.
End requests.

(** ** [thunkActions/grading.js] *)

Module thunkActions.
Section Grading.
Context `{store : selectors.Store}.

(** Prefetch the "next" submission in the selected queue.  Only fetches the
    response info. *)
Definition prefetchNext (_ : unit) : Dispatchable Thunk := Thk (
  s ← getState;
  dispatch (requests.fetchSubmissionResponse
    RequestKeys.prefetchNext
    (selectors.grading_next_submissionUUID s)
    (λ response, dispatch (actions.grading_preloadNext response)))).

(** Prefetch the "previous" submission in the selected queue. *)
Definition prefetchPrev (_ : unit) : Dispatchable Thunk := Thk (
  s ← getState;
  dispatch (requests.fetchSubmissionResponse
    RequestKeys.prefetchPrev
    (selectors.grading_prev_submissionUUID s)
    (λ response, dispatch (actions.grading_preloadPrev response)))).

(** Fetch the target neighbour's status; on success dispatch the load action
    with the response (injecting [submissionUUID]) and, if [hasNeighbor],
    the prefetch action. *)
Definition fetchNeighbor (submissionUUID : JsVal)
    (loadAction : Response -> Dispatchable Thunk)
    (hasNeighbor : bool)
    (prefetchAction : unit -> Dispatchable Thunk) : Dispatchable Thunk := Thk (
  dispatch (requests.fetchSubmissionStatus
    submissionUUID
    (λ response,
      dispatch (loadAction (spread_with response "submissionUUID" submissionUUID));;
      if hasNeighbor then dispatch (prefetchAction tt) else mret tt))).

Definition loadNext (_ : unit) : Dispatchable Thunk := Thk (
  s1 ← getState;
  s2 ← getState;
  dispatch (fetchNeighbor
    (selectors.grading_next_submissionUUID s2)
    actions.grading_loadNext
    (selectors.grading_next_doesExist s1)
    prefetchNext)).

Definition loadPrev (_ : unit) : Dispatchable Thunk := Thk (
  s1 ← getState;
  s2 ← getState;
  dispatch (fetchNeighbor
    (selectors.grading_prev_submissionUUID s2)
    actions.grading_loadPrev
    (selectors.grading_prev_doesExist s1)
    prefetchPrev)).

(** Takes the ordered list of selected submission ids, fetches the first one
    in full, then loads it, switches to review mode and prefetches the
    neighbours. *)
Definition loadSelectionForReview (submissionUUIDs : list JsVal) : Dispatchable Thunk := Thk (
  dispatch (requests.fetchSubmission
    (js_index submissionUUIDs 0)
    (λ response,
      dispatch (actions.grading_updateSelection submissionUUIDs);;
      dispatch (actions.grading_loadSubmission
        (spread_with response "submissionUUID" (js_index submissionUUIDs 0)));;
      dispatch (actions.app_setShowReview true);;
      s1 ← getState;
      (if selectors.grading_next_doesExist s1
       then dispatch (prefetchNext tt) else mret tt);;
      s2 ← getState;
      if selectors.grading_prev_doesExist s2
      then dispatch (prefetchPrev tt) else mret tt))).

(** Start grading the current submission: lock it and, on success, show the
    rubric and start grading with the returned grade data, or with an empty
    grade generated from the rubric config when there is none. *)
Definition startGrading (_ : unit) : Dispatchable Thunk := Thk (
  s ← getState;
  dispatch (requests.setLock
    true
    (selectors.grading_selected_submissionUUID s)
    (λ response,
      dispatch (actions.app_setShowRubric true);;
      gradeData ← (let gradeData := prop response "gradeData" in
                   if negb (truthy gradeData)
                   then s' ← getState; mret (selectors.app_emptyGrade s')
                   else mret gradeData);
      dispatch (actions.grading_startGrading
        (spread_with response "gradeData" gradeData))))).

(** Stops the grading process for the current submission (local only). *)
Definition stopGrading (_ : unit) : Dispatchable Thunk := Thk (
  dispatch (actions.grading_stopGrading tt)).

(** Cancels the grading process: releases the lock and dispatches
    [stopGrading] on success. *)
Definition cancelGrading (_ : unit) : Dispatchable Thunk := Thk (
  s ← getState;
  dispatch (requests.setLock
    false
    (selectors.grading_selected_submissionUUID s)
    (λ _, dispatch (stopGrading tt)))).

Definition submitGrade (_ : unit) : Dispatchable Thunk := Thk (
  s1 ← getState;
  let gradeData := selectors.grading_selected_gradingData s1 in
  s2 ← getState;
  let submissionUUID := selectors.grading_selected_submissionUUID s2 in
  s3 ← getState;
  if selectors.grading_validation_isValidForSubmit s3
  then
    dispatch (actions.grading_setShowValidation false);;
    dispatch (requests.submitGrade
      submissionUUID
      gradeData
      (λ response, dispatch (actions.grading_completeGrading response))
      (λ _, mret tt))
  else
    dispatch (actions.grading_setShowValidation true)).

End Grading.
End thunkActions.

(** ** A store for the selection queue *)

(** Modelled from the spec: the reducers and selectors of [data/redux] are
    not part of the sources at hand.  The spec's data model gives the store a
    "submission queue position: current/previous/next submission identifiers
    and whether neighbors exist", the queue being "an ordered context of
    submissions from which next/previous neighbors are derived"; "grade
    data ... associated with one submission, mutable only while grading is
    active"; and a "validation state: a boolean flag".  [loadSelectionForReview]
    "records the full ordered selection in state", [loadNext] and [loadPrev]
    move the position by one, [startGrading] "initializes local grading
    state" with the grade data, and [stopGrading] "clears grading-in-progress
    and associated local grade edits".  A preload stores "the fetched
    response against the neighbor slot"; of "complete grading" the spec gives
    the name only, and it is taken to end the grading in progress.  The
    validity check and the rubric-derived template are opaque in the spec and
    stay parameters. *)
Module QueueStore.

Record QueueState : Type := {
  selection : list JsVal;
  activeIndex : nat;
  current : Response;
  prevResponse : option Response;
  nextResponse : option Response;
  showReview : bool;
  showRubric : bool;
  showValidation : bool;
  isGrading : bool;
  localGradeData : JsVal;
}.

(** Field updates, the [{ ...state, field: value }] of a reducer. *)
Definition set_selection (ids : list JsVal) (s : QueueState) : QueueState :=
  {| selection := ids; activeIndex := activeIndex s; current := current s;
     prevResponse := prevResponse s; nextResponse := nextResponse s;
     showReview := showReview s; showRubric := showRubric s;
     showValidation := showValidation s;
     isGrading := isGrading s; localGradeData := localGradeData s |}.

Definition set_activeIndex (i : nat) (s : QueueState) : QueueState :=
  {| selection := selection s; activeIndex := i; current := current s;
     prevResponse := prevResponse s; nextResponse := nextResponse s;
     showReview := showReview s; showRubric := showRubric s;
     showValidation := showValidation s;
     isGrading := isGrading s; localGradeData := localGradeData s |}.

Definition set_current (p : Response) (s : QueueState) : QueueState :=
  {| selection := selection s; activeIndex := activeIndex s; current := p;
     prevResponse := prevResponse s; nextResponse := nextResponse s;
     showReview := showReview s; showRubric := showRubric s;
     showValidation := showValidation s;
     isGrading := isGrading s; localGradeData := localGradeData s |}.

Definition set_prevResponse (r : option Response) (s : QueueState) : QueueState :=
  {| selection := selection s; activeIndex := activeIndex s; current := current s;
     prevResponse := r; nextResponse := nextResponse s;
     showReview := showReview s; showRubric := showRubric s;
     showValidation := showValidation s;
     isGrading := isGrading s; localGradeData := localGradeData s |}.

Definition set_nextResponse (r : option Response) (s : QueueState) : QueueState :=
  {| selection := selection s; activeIndex := activeIndex s; current := current s;
     prevResponse := prevResponse s; nextResponse := r;
     showReview := showReview s; showRubric := showRubric s;
     showValidation := showValidation s;
     isGrading := isGrading s; localGradeData := localGradeData s |}.

Definition set_showReview (b : bool) (s : QueueState) : QueueState :=
  {| selection := selection s; activeIndex := activeIndex s; current := current s;
     prevResponse := prevResponse s; nextResponse := nextResponse s;
     showReview := b; showRubric := showRubric s;
     showValidation := showValidation s;
     isGrading := isGrading s; localGradeData := localGradeData s |}.

Definition set_showRubric (b : bool) (s : QueueState) : QueueState :=
  {| selection := selection s; activeIndex := activeIndex s; current := current s;
     prevResponse := prevResponse s; nextResponse := nextResponse s;
     showReview := showReview s; showRubric := b;
     showValidation := showValidation s;
     isGrading := isGrading s; localGradeData := localGradeData s |}.

Definition set_showValidation (b : bool) (s : QueueState) : QueueState :=
  {| selection := selection s; activeIndex := activeIndex s; current := current s;
     prevResponse := prevResponse s; nextResponse := nextResponse s;
     showReview := showReview s; showRubric := showRubric s;
     showValidation := b;
     isGrading := isGrading s; localGradeData := localGradeData s |}.

Definition set_grading (g : bool) (d : JsVal) (s : QueueState) : QueueState :=
  {| selection := selection s; activeIndex := activeIndex s; current := current s;
     prevResponse := prevResponse s; nextResponse := nextResponse s;
     showReview := showReview s; showRubric := showRubric s;
     showValidation := showValidation s;
     isGrading := g; localGradeData := d |}.

Definition queue_reducer (s : QueueState) (a : Action) : QueueState :=
  match a with
  | PreloadNext r => set_nextResponse (Some r) s
  | PreloadPrev r => set_prevResponse (Some r) s
  | LoadNext p => set_current p (set_activeIndex (S (activeIndex s)) s)
  | LoadPrev p => set_current p (set_activeIndex (pred (activeIndex s)) s)
  | UpdateSelection ids => set_activeIndex 0 (set_selection ids s)
  | LoadSubmission p => set_current p s
  | StartGrading p => set_grading true (prop p "gradeData") s
  | StopGrading => set_grading false JUndefined s
  | SetShowValidation b => set_showValidation b s
  | CompleteGrading _ => set_grading false (localGradeData s) s
  | SetShowReview b => set_showReview b s
  | SetShowRubric b => set_showRubric b s
  end.

(** A next neighbour exists when the position is not the last of the
    selection, a previous one when it is not the first. *)
Definition next_doesExist (s : QueueState) : bool :=
  S (activeIndex s) <? length (selection s).

Definition next_submissionUUID (s : QueueState) : JsVal :=
  js_index (selection s) (S (activeIndex s)).

Definition prev_doesExist (s : QueueState) : bool :=
  0 <? activeIndex s.

Definition prev_submissionUUID (s : QueueState) : JsVal :=
  match activeIndex s with
  | O => JUndefined
  | S i => js_index (selection s) i
  end.

Definition selected_submissionUUID (s : QueueState) : JsVal :=
  js_index (selection s) (activeIndex s).

Section Instance.
Variable isValidForSubmit : QueueState -> bool.
Variable emptyGrade : QueueState -> JsVal.

Definition queueStore : selectors.Store := {|
  selectors.State := QueueState;
  selectors.reducer := queue_reducer;
  selectors.grading_next_doesExist := next_doesExist;
  selectors.grading_next_submissionUUID := next_submissionUUID;
  selectors.grading_prev_doesExist := prev_doesExist;
  selectors.grading_prev_submissionUUID := prev_submissionUUID;
  selectors.grading_selected_submissionUUID := selected_submissionUUID;
  selectors.grading_selected_gradingData := localGradeData;
  selectors.grading_validation_isValidForSubmit := isValidForSubmit;
  selectors.app_emptyGrade := emptyGrade;
|}.
End Instance.

(** The instance used for concrete runs: every grade passes the validity
    check and the empty grade is the empty object. *)
Definition store : selectors.Store :=
  queueStore (fun _ => true) (fun _ => JObj []).

(** A queue of the submissions [ids], positioned at index [i]. *)
Definition queue_at (ids : list JsVal) (i : nat) : QueueState := {|
  selection := ids; activeIndex := i;
  current := ∅; prevResponse := None; nextResponse := None;
  showReview := true; showRubric := false; showValidation := false;
  isGrading := false; localGradeData := JUndefined |}.

(** The first position of a queue of two and of a queue of three. *)
Definition first_of_two : QueueState := queue_at [JStr "A"; JStr "B"] 0.
Definition first_of_three : QueueState := queue_at [JStr "A"; JStr "B"; JStr "C"] 0.

End QueueStore.

(** ** The default export *)

(** [export default StrictDict({ ... })]: the seven thunk creators the rest
    of the application reaches, each with the arguments of a call.  The
    prefetches and [fetchNeighbor] are named exports only. *)
Inductive Exported : Type :=
| Export_loadSelectionForReview (submissionUUIDs : list JsVal)
| Export_loadNext
| Export_loadPrev
| Export_startGrading
| Export_cancelGrading
| Export_stopGrading
| Export_submitGrade.

Section DefaultExport.
Context `{store : selectors.Store}.

Definition default_export (e : Exported) : Dispatchable Thunk :=
  match e with
  | Export_loadSelectionForReview submissionUUIDs =>
      thunkActions.loadSelectionForReview submissionUUIDs
  | Export_loadNext => thunkActions.loadNext tt
  | Export_loadPrev => thunkActions.loadPrev tt
  | Export_startGrading => thunkActions.startGrading tt
  | Export_cancelGrading => thunkActions.cancelGrading tt
  | Export_stopGrading => thunkActions.stopGrading tt
  | Export_submitGrade => thunkActions.submitGrade tt
  end.

End DefaultExport.

(** ** Resolution of requests *)

(** How a request ends. *)
Inductive Outcome : Type :=
| Succeeded (response : Response)
| Failed (error : JsVal).

Section Resolution.
Context `{store : selectors.Store}.

(** Modelled from the spec: the request layer "invokes a success or failure
    callback with the response".  A request that was handed no [onFailure]
    has nothing of this module to run when it fails. *)
Definition resume (r : Request Thunk) (o : Outcome) : Thunk :=
  match o with
  | Succeeded response => onSuccess_of r response
  | Failed error =>
      match onFailure_of r with
      | Some onFailure => onFailure error
      | None => mret tt
      end
  end.

(** [confined n allowed tr]: every action and every call of the trace [tr]
    is one [allowed] admits, and so is everything the callbacks of its
    requests do, however each request ends and in whatever state; after [n]
    rounds of responses no request is left waiting. *)
Fixpoint confined (n : nat) (allowed : Event -> bool) (tr : list Effect) : Prop :=
  Forall (fun e => allowed (event_of e) = true) tr
  ∧ match n with
    | O => pending tr = []
    | S n' =>
        Forall (fun r => ∀ (o : Outcome) (s : selectors.State),
                  confined n' allowed (resume r o s).2)
               (pending tr)
    end.

(** [failure_silent n tr]: a failure of any request of [tr], or of any
    request issued within [n] rounds of successful responses to them,
    dispatches nothing, issues nothing and leaves the store as it is. *)
Fixpoint failure_silent (n : nat) (tr : list Effect) : Prop :=
  Forall (fun r =>
            (∀ (error : JsVal) (s : selectors.State),
               resume r (Failed error) s = (tt, s, []))
            ∧ match n with
              | O => True
              | S n' =>
                  ∀ (response : Response) (s : selectors.State),
                    failure_silent n' (resume r (Succeeded response) s).2
              end)
         (pending tr).

End Resolution.

(** The actions and calls each thunk may cause. *)
Definition next_navigation_event (e : Event) : bool :=
  match e with
  | EvAction (LoadNext _) | EvAction (PreloadNext _)
  | EvCall (CallFetchSubmissionStatus _)
  | EvCall (CallFetchSubmissionResponse RequestKeys.prefetchNext _) => true
  | _ => false
  end.

Definition prev_navigation_event (e : Event) : bool :=
  match e with
  | EvAction (LoadPrev _) | EvAction (PreloadPrev _)
  | EvCall (CallFetchSubmissionStatus _)
  | EvCall (CallFetchSubmissionResponse RequestKeys.prefetchPrev _) => true
  | _ => false
  end.

Definition review_event (e : Event) : bool :=
  match e with
  | EvAction (UpdateSelection _) | EvAction (LoadSubmission _)
  | EvAction (SetShowReview true)
  | EvAction (PreloadNext _) | EvAction (PreloadPrev _)
  | EvCall (CallFetchSubmission _)
  | EvCall (CallFetchSubmissionResponse _ _) => true
  | _ => false
  end.

Definition grading_event (x : Exported) (e : Event) : bool :=
  match x, e with
  | Export_startGrading, EvCall (CallSetLock true _)
  | Export_startGrading, EvAction (SetShowRubric true)
  | Export_startGrading, EvAction (StartGrading _)
  | Export_cancelGrading, EvCall (CallSetLock false _)
  | Export_cancelGrading, EvAction StopGrading
  | Export_stopGrading, EvAction StopGrading
  | Export_submitGrade, EvAction (SetShowValidation _)
  | Export_submitGrade, EvCall (CallSubmitGrade _ _)
  | Export_submitGrade, EvAction (CompleteGrading _) => true
  | _, _ => false
  end.

(** * Properties of the thunks *)

Section Properties.
Context `{store : selectors.Store}.
Import selectors thunkActions.

(** ** Objects *)

Lemma prop_spread_with_eq (response : Response) (key : string) (v : JsVal) :
  prop (spread_with response key v) key = v.
Proof. unfold prop, spread_with. by rewrite lookup_insert_eq. Qed.

Lemma prop_spread_with_ne (response : Response) (key key' : string) (v : JsVal) :
  key ≠ key' -> prop (spread_with response key v) key' = prop response key'.
Proof. intros Hne. unfold prop, spread_with. by rewrite lookup_insert_ne. Qed.

Lemma spread_with_rest (response : Response) (key : string) (v : JsVal) :
  delete key (spread_with response key v) = delete key response.
Proof. unfold spread_with. apply delete_insert_eq. Qed.

Lemma truthy_object (fields : list (string * JsVal)) :
  truthy (JObj fields) = true.
Proof. reflexivity. Qed.

Lemma truthy_missing (response : Response) (key : string) :
  response !! key = None -> truthy (prop response key) = false.
Proof. intros Hnone. unfold prop. by rewrite Hnone. Qed.

Lemma truthy_null (response : Response) (key : string) :
  response !! key = Some JNull -> truthy (prop response key) = false.
Proof. intros Hnull. unfold prop. by rewrite Hnull. Qed.

(** ** Sequencing *)

(** Unfold a thunk down to the store's reducer and selectors. *)
Ltac run_thunk :=
  unfold run, submitGrade, cancelGrading, stopGrading, startGrading,
    loadSelectionForReview, loadPrev, loadNext, fetchNeighbor,
    prefetchPrev, prefetchNext;
  unfold requests.submitGrade, requests.setLock, requests.fetchSubmission,
    requests.fetchSubmissionStatus, requests.fetchSubmissionResponse, issue;
  unfold mbind, M_bind, mret, M_ret, getState; cbn.

Lemma run_plain (a : Action) (s : State) :
  run (Plain a) s = (reducer s a, [Dispatched a]).
Proof. reflexivity. Qed.

Lemma dispatch_run (x : Dispatchable Thunk) (s : State) :
  dispatch x s = (tt, (run x s).1, (run x s).2).
Proof. unfold run. destruct (dispatch x s) as [[[] s'] tr]. reflexivity. Qed.

Lemma bind_run (x : Dispatchable Thunk) (k : Thunk) (s : State) :
  (dispatch x ;; k) s =
  (tt, (k (run x s).1).1.2, (run x s).2 ++ (k (run x s).1).2).
Proof.
  unfold mbind, M_bind. rewrite dispatch_run. simpl.
  destruct (k (run x s).1) as [[[] s2] t2]. reflexivity.
Qed.

(** ** The prefetches *)

Lemma prefetchNext_run (s : State) :
  run (prefetchNext tt) s =
  (s, [Issued (FetchSubmissionResponse RequestKeys.prefetchNext
                 (grading_next_submissionUUID s)
                 (λ response, dispatch (actions.grading_preloadNext response)))]).
Proof. reflexivity. Qed.

Lemma prefetchPrev_run (s : State) :
  run (prefetchPrev tt) s =
  (s, [Issued (FetchSubmissionResponse RequestKeys.prefetchPrev
                 (grading_prev_submissionUUID s)
                 (λ response, dispatch (actions.grading_preloadPrev response)))]).
Proof. reflexivity. Qed.

Lemma preload_callbacks (response : Response) (s : State) :
  dispatch (actions.grading_preloadNext response) s
  = (tt, reducer s (PreloadNext response), [Dispatched (PreloadNext response)])
  ∧ dispatch (actions.grading_preloadPrev response) s
  = (tt, reducer s (PreloadPrev response), [Dispatched (PreloadPrev response)]).
Proof. split; reflexivity. Qed.

(** ** Neighbour navigation *)

(** C6: for every target id, load action, [hasNeighbor] flag and prefetch
    action, [fetchNeighbor] issues one status fetch for the target and
    nothing else; when it succeeds, the callback dispatches the load action
    on the response with [submissionUUID] set to the target id (overriding a
    field of that name, leaving the others), and after it dispatches the
    prefetch action exactly when [hasNeighbor] is true. *)
Theorem C6_fetchNeighbor_contract
    (submissionUUID : JsVal) (loadAction : Response -> Dispatchable Thunk)
    (hasNeighbor : bool) (prefetchAction : unit -> Dispatchable Thunk) (s : State) :
  ∃ onSuccess,
    run (fetchNeighbor submissionUUID loadAction hasNeighbor prefetchAction) s
    = (s, [Issued (FetchSubmissionStatus submissionUUID onSuccess)])
    ∧ ∀ (response : Response) (s' : State),
        let merged := spread_with response "submissionUUID" submissionUUID in
        let loaded := run (loadAction merged) s' in
        prop merged "submissionUUID" = submissionUUID
        ∧ delete "submissionUUID" merged = delete "submissionUUID" response
        ∧ onSuccess response s'
          = (tt,
             (if hasNeighbor then (run (prefetchAction tt) loaded.1).1 else loaded.1),
             loaded.2 ++
             (if hasNeighbor then (run (prefetchAction tt) loaded.1).2 else [])).
Proof.
  eexists. split; [reflexivity|].
  intros response s' merged loaded.
  split; [apply prop_spread_with_eq|].
  split; [apply spread_with_rest|].
  rewrite bind_run. fold merged. fold loaded.
  destruct hasNeighbor; [by rewrite dispatch_run | reflexivity].
Qed.

(** C9: in [loadNext] (and [loadPrev]) the [hasNeighbor] flag comes from the
    state [s0] at the call, before anything is loaded, while the prefetch
    reads its target id from the state left by the load action, whatever the
    state [s1] in which the status response arrives.  So the prefetch is
    issued exactly when a next (previous) neighbour existed at [s0], whether
    or not one exists once the load action has been applied. *)
Theorem C9_hasNeighbor_read_before_load (s0 : State) :
  (∃ onSuccess,
     run (loadNext tt) s0
     = (s0, [Issued (FetchSubmissionStatus (grading_next_submissionUUID s0) onSuccess)])
     ∧ ∀ (response : Response) (s1 : State),
         let payload :=
           spread_with response "submissionUUID" (grading_next_submissionUUID s0) in
         let s2 := reducer s1 (LoadNext payload) in
         (onSuccess response s1).1.2 = s2
         ∧ events (onSuccess response s1).2
           = EvAction (LoadNext payload)
             :: (if grading_next_doesExist s0
                 then [EvCall (CallFetchSubmissionResponse RequestKeys.prefetchNext
                                 (grading_next_submissionUUID s2))]
                 else []))
  ∧ (∃ onSuccess,
     run (loadPrev tt) s0
     = (s0, [Issued (FetchSubmissionStatus (grading_prev_submissionUUID s0) onSuccess)])
     ∧ ∀ (response : Response) (s1 : State),
         let payload :=
           spread_with response "submissionUUID" (grading_prev_submissionUUID s0) in
         let s2 := reducer s1 (LoadPrev payload) in
         (onSuccess response s1).1.2 = s2
         ∧ events (onSuccess response s1).2
           = EvAction (LoadPrev payload)
             :: (if grading_prev_doesExist s0
                 then [EvCall (CallFetchSubmissionResponse RequestKeys.prefetchPrev
                                 (grading_prev_submissionUUID s2))]
                 else [])).
Proof.
  split; (eexists; split; [reflexivity|]); intros response s1 payload s2; cbn.
  - destruct (grading_next_doesExist s0); split; reflexivity.
  - destruct (grading_prev_doesExist s0); split; reflexivity.
Qed.

(** ** Submitting a grade *)

(** C1: [submitGrade] issues the submit request exactly when
    [isValidForSubmit] holds of the state it is called in.  When valid it
    first dispatches [setShowValidation(false)] and then issues one submit
    request carrying the selected submission id and its grading data, both
    read from the state at the call; when invalid it dispatches
    [setShowValidation(true)] and nothing else, and issues no request. *)
Theorem C1_submitGrade_gated_by_validity (s : State) :
  let valid := grading_validation_isValidForSubmit s in
  let submit := CallSubmitGrade (grading_selected_submissionUUID s)
                                (grading_selected_gradingData s) in
  let result := run (submitGrade tt) s in
  calls result.2 = (if valid then [submit] else [])
  ∧ dispatched result.2 = [SetShowValidation (negb valid)]
  ∧ events result.2
    = (if valid
       then [EvAction (SetShowValidation false); EvCall submit]
       else [EvAction (SetShowValidation true)])
  ∧ result.1 = reducer s (SetShowValidation (negb valid)).
Proof.
  intros valid submit result. subst valid submit result. run_thunk.
  destruct (grading_validation_isValidForSubmit s); cbn; repeat split.
Qed.

(** C8: when [submitGrade] has issued its request (the state was valid, and
    [setShowValidation(false)] has been applied), the failure callback of
    that request dispatches nothing and issues nothing: run in any state, in
    particular the one the request was issued in, it leaves that state as it
    is.  The success callback is the only one that dispatches
    [completeGrading], once, with the response. *)
Theorem C8_submitGrade_failure_is_silent (s : State) :
  grading_validation_isValidForSubmit s = true ->
  ∃ onSuccess onFailure,
    run (submitGrade tt) s
    = (reducer s (SetShowValidation false),
       [Dispatched (SetShowValidation false);
        Issued (SubmitGrade (grading_selected_submissionUUID s)
                            (grading_selected_gradingData s)
                            onSuccess onFailure)])
    ∧ (∀ (error : JsVal) (s' : State), onFailure error s' = (tt, s', []))
    ∧ (∀ (response : Response) (s' : State),
         onSuccess response s'
         = (tt, reducer s' (CompleteGrading response),
            [Dispatched (CompleteGrading response)])).
Proof.
  intros Hvalid. do 2 eexists. run_thunk. rewrite Hvalid; cbn.
  split; [reflexivity|]. split; reflexivity.
Qed.

(** ** The grading lifecycle *)

(** C4: [startGrading] asks for the lock on the selected submission; for
    every response to that request the success callback makes the rubric
    visible and then dispatches one [startGrading] action whose payload is
    the response with [gradeData] set to the response's own grade data when
    it has some (a truthy [gradeData] field), and to [emptyGrade] of the
    state otherwise. *)
Theorem C4_startGrading_grade_data (s : State) :
  ∃ onSuccess,
    run (startGrading tt) s
    = (s, [Issued (SetLock true (grading_selected_submissionUUID s) onSuccess)])
    ∧ ∀ (response : Response) (s' : State),
        let s1 := reducer s' (SetShowRubric true) in
        let gradeData :=
          if truthy (prop response "gradeData")
          then prop response "gradeData" else app_emptyGrade s1 in
        let payload := spread_with response "gradeData" gradeData in
        onSuccess response s'
        = (tt, reducer s1 (StartGrading payload),
           [Dispatched (SetShowRubric true); Dispatched (StartGrading payload)])
        ∧ prop payload "gradeData" = gradeData
        ∧ delete "gradeData" payload = delete "gradeData" response.
Proof.
  eexists. split; [reflexivity|].
  intros response s' s1 gradeData payload.
  split; [|split; [apply prop_spread_with_eq | apply spread_with_rest]].
  subst payload gradeData s1. cbn.
  destruct (truthy (prop response "gradeData")); reflexivity.
Qed.

(** ** Loading a selection *)

(** C5: for a non-empty list of ids, [loadSelectionForReview] issues one full
    fetch for the first id.  When it succeeds the callback dispatches, in
    this order, [updateSelection] with the whole list, [loadSubmission] with
    the response carrying the first id, and [setShowReview(true)]; then, in
    the state [s3] these three leave, it runs [prefetchNext] if a next
    neighbour exists and, independently, [prefetchPrev] if a previous one
    exists. *)
Theorem C5_loadSelectionForReview_sequence
    (first : JsVal) (rest : list JsVal) (s : State) :
  let submissionUUIDs := first :: rest in
  ∃ onSuccess,
    run (loadSelectionForReview submissionUUIDs) s
    = (s, [Issued (FetchSubmission first onSuccess)])
    ∧ ∀ (response : Response) (s' : State),
        let loaded := spread_with response "submissionUUID" first in
        let s3 := reducer (reducer (reducer s' (UpdateSelection submissionUUIDs))
                                   (LoadSubmission loaded))
                          (SetShowReview true) in
        onSuccess response s'
        = (tt, s3,
           [Dispatched (UpdateSelection submissionUUIDs);
            Dispatched (LoadSubmission loaded);
            Dispatched (SetShowReview true)]
           ++ (if grading_next_doesExist s3 then (run (prefetchNext tt) s3).2 else [])
           ++ (if grading_prev_doesExist s3 then (run (prefetchPrev tt) s3).2 else []))
        ∧ calls (run (prefetchNext tt) s3).2
          = [CallFetchSubmissionResponse RequestKeys.prefetchNext
               (grading_next_submissionUUID s3)]
        ∧ calls (run (prefetchPrev tt) s3).2
          = [CallFetchSubmissionResponse RequestKeys.prefetchPrev
               (grading_prev_submissionUUID s3)]
        ∧ prop loaded "submissionUUID" = first.
Proof.
  intros submissionUUIDs. eexists. split; [reflexivity|].
  intros response s' loaded s3.
  split; [|repeat split; apply prop_spread_with_eq].
  subst s3 loaded submissionUUIDs. run_thunk.
  set (s3 := reducer _ (SetShowReview true)).
  destruct (grading_next_doesExist s3), (grading_prev_doesExist s3); reflexivity.
Qed.

(** C10: called with the empty list, [loadSelectionForReview] neither rejects
    nor does nothing: it issues one full fetch, and the submission id it
    sends is [submissionUUIDs[0]] of the empty array, that is [undefined]. *)
Theorem C10_loadSelectionForReview_empty (s : State) :
  ∃ onSuccess,
    run (loadSelectionForReview []) s
    = (s, [Issued (FetchSubmission JUndefined onSuccess)])
    ∧ calls (run (loadSelectionForReview []) s).2 = [CallFetchSubmission JUndefined]
    ∧ js_index [] 0 = JUndefined.
Proof. eexists. repeat split. Qed.

End Properties.

(** The failure callback of a valid submit, on a queue of two. *)
Lemma C8_submitGrade_failure_witness :
  selectors.grading_validation_isValidForSubmit
    (Store := QueueStore.store) QueueStore.first_of_two = true
  ∧ ∃ onSuccess onFailure,
      run (store := QueueStore.store) (thunkActions.submitGrade tt)
        QueueStore.first_of_two
      = (QueueStore.queue_reducer QueueStore.first_of_two (SetShowValidation false),
         [Dispatched (SetShowValidation false);
          Issued (SubmitGrade (JStr "A") JUndefined onSuccess onFailure)])
      ∧ (∀ (error : JsVal) (s' : QueueStore.QueueState),
           onFailure error s' = (tt, s', []))
      ∧ (∀ (response : Response) (s' : QueueStore.QueueState),
           onSuccess response s'
           = (tt, QueueStore.queue_reducer s' (CompleteGrading response),
              [Dispatched (CompleteGrading response)])).
Proof.
  split; [reflexivity|].
  apply (C8_submitGrade_failure_is_silent
           (store := QueueStore.store) QueueStore.first_of_two).
  reflexivity.
Defined.

(** ** Cancelling *)

(** C7: [cancelGrading] issues one request, the release of the lock
    ([setLock] with value [false]) on the selected submission; its success
    callback dispatches [stopGrading] once, and [stopGrading] dispatches the
    one plain [stopGrading] action and issues no request.  On the queue store
    that action clears the grading-in-progress flag and the local grade
    edits and leaves every other field of the state as it was. *)
Theorem C7_cancelGrading_releases_then_stops :
  (∀ (store : selectors.Store) (s : selectors.State),
     ∃ onSuccess,
       run (thunkActions.cancelGrading tt) s
       = (s, [Issued (SetLock false (selectors.grading_selected_submissionUUID s)
                        onSuccess)])
       ∧ ∀ (response : Response) (s' : selectors.State),
           onSuccess response s'
           = (tt, selectors.reducer s' StopGrading, [Dispatched StopGrading])
           ∧ run (thunkActions.stopGrading tt) s'
             = (selectors.reducer s' StopGrading, [Dispatched StopGrading]))
  ∧ ∀ q : QueueStore.QueueState,
      QueueStore.queue_reducer q StopGrading
      = {| QueueStore.selection := QueueStore.selection q;
           QueueStore.activeIndex := QueueStore.activeIndex q;
           QueueStore.current := QueueStore.current q;
           QueueStore.prevResponse := QueueStore.prevResponse q;
           QueueStore.nextResponse := QueueStore.nextResponse q;
           QueueStore.showReview := QueueStore.showReview q;
           QueueStore.showRubric := QueueStore.showRubric q;
           QueueStore.showValidation := QueueStore.showValidation q;
           QueueStore.isGrading := false;
           QueueStore.localGradeData := JUndefined |}.
Proof.
  split.
  - intros store s. eexists. split; [reflexivity|].
    intros response s'. split; reflexivity.
  - intros q. reflexivity.
Qed.

(** ** Navigation on the queue store *)

Section QueueProperties.
Import QueueStore thunkActions.
Variable isValidForSubmit : QueueState -> bool.
Variable emptyGrade : QueueState -> JsVal.

Local Abbreviation Q := (queueStore isValidForSubmit emptyGrade).

(** Moving to the next submission cannot create a next neighbour: if one
    exists after [loadNext], one existed before. *)
Lemma next_doesExist_before (s : QueueState) (payload : Response) :
  next_doesExist (queue_reducer s (LoadNext payload)) = true ->
  next_doesExist s = true.
Proof.
  change (next_doesExist (queue_reducer s (LoadNext payload)))
    with (S (S (activeIndex s)) <? length (selection s)).
  unfold next_doesExist. rewrite !Nat.ltb_lt. lia.
Qed.

Lemma next_doesExist_same_position (s s' : QueueState) :
  selection s' = selection s -> activeIndex s' = activeIndex s ->
  next_doesExist s' = next_doesExist s.
Proof. unfold next_doesExist. by intros -> ->. Qed.

(** C3: on the queue store, when the submission [loadNext] moves to has a
    next neighbour of its own, [loadNext] issues one status fetch for the
    next id; when it succeeds (in a state with the same selection and
    position as at the call) the callback dispatches the load action and
    then issues one response-only fetch, for the id that is next in the
    state after the load; the callback of that fetch only stores the
    preloaded response. *)
Theorem C3_loadNext_prefetches_new_neighbor
    (s0 s1 : QueueState) (response : Response) :
  let payload := spread_with response "submissionUUID" (next_submissionUUID s0) in
  let s2 := queue_reducer s1 (LoadNext payload) in
  selection s1 = selection s0 ->
  activeIndex s1 = activeIndex s0 ->
  next_doesExist s2 = true ->
  ∃ onSuccess onPreload,
    run (store := Q) (loadNext tt) s0
    = (s0, [Issued (FetchSubmissionStatus (next_submissionUUID s0) onSuccess)])
    ∧ onSuccess response s1
      = (tt, s2,
         [Dispatched (LoadNext payload);
          Issued (FetchSubmissionResponse RequestKeys.prefetchNext
                    (next_submissionUUID s2) onPreload)])
    ∧ ∀ (preloaded : Response) (s' : QueueState),
        onPreload preloaded s'
        = (tt, queue_reducer s' (PreloadNext preloaded),
           [Dispatched (PreloadNext preloaded)]).
Proof.
  intros payload s2 Hsel Hidx Hafter.
  apply next_doesExist_before in Hafter.
  rewrite (next_doesExist_same_position s0 s1 Hsel Hidx) in Hafter.
  do 2 eexists. split; [reflexivity|].
  change (@selectors.grading_next_doesExist Q s0) with (next_doesExist s0).
  rewrite Hafter. split; reflexivity.
Qed.

End QueueProperties.

(** [loadNext] from the first of three submissions, the response being the
    empty object. *)
Lemma C3_loadNext_witness :
  QueueStore.next_doesExist
    (QueueStore.queue_reducer QueueStore.first_of_three
       (LoadNext (spread_with ∅ "submissionUUID" (JStr "B")))) = true
  ∧ ∃ onSuccess onPreload,
      run (store := QueueStore.store) (thunkActions.loadNext tt)
        QueueStore.first_of_three
      = (QueueStore.first_of_three,
         [Issued (FetchSubmissionStatus (JStr "B") onSuccess)])
      ∧ onSuccess ∅ QueueStore.first_of_three
        = (tt,
           QueueStore.queue_reducer QueueStore.first_of_three
             (LoadNext (spread_with ∅ "submissionUUID" (JStr "B"))),
           [Dispatched (LoadNext (spread_with ∅ "submissionUUID" (JStr "B")));
            Issued (FetchSubmissionResponse RequestKeys.prefetchNext
                      (JStr "C") onPreload)])
      ∧ ∀ (preloaded : Response) (s' : QueueStore.QueueState),
          onPreload preloaded s'
          = (tt, QueueStore.queue_reducer s' (PreloadNext preloaded),
             [Dispatched (PreloadNext preloaded)]).
Proof.
  split; [reflexivity|].
  apply (C3_loadNext_prefetches_new_neighbor (fun _ => true) (fun _ => JObj [])
           QueueStore.first_of_three QueueStore.first_of_three ∅);
    reflexivity.
Defined.

(** C2: [loadNext] from the first of two submissions.  After the move the
    position is the last one and no next neighbour exists, yet the success
    callback still issues the prefetch, for an id that is [undefined]: the
    flag was read before the move. *)
Theorem C2_loadNext_prefetches_past_the_end :
  ∃ onSuccess,
    run (store := QueueStore.store) (thunkActions.loadNext tt) QueueStore.first_of_two
    = (QueueStore.first_of_two,
       [Issued (FetchSubmissionStatus (JStr "B") onSuccess)])
    ∧ (onSuccess ∅ QueueStore.first_of_two).1.2
      = QueueStore.queue_reducer QueueStore.first_of_two
          (LoadNext (spread_with ∅ "submissionUUID" (JStr "B")))
    ∧ QueueStore.next_doesExist (onSuccess ∅ QueueStore.first_of_two).1.2 = false
    ∧ events (store := QueueStore.store) (onSuccess ∅ QueueStore.first_of_two).2
      = [EvAction (LoadNext (spread_with ∅ "submissionUUID" (JStr "B")));
         EvCall (CallFetchSubmissionResponse RequestKeys.prefetchNext JUndefined)].
Proof. eexists. repeat split. Qed.

(** * Further properties *)

(** Unfolds the thunks down to the store's reducer and selectors. *)
Ltac unfold_thunks :=
  unfold run, default_export, thunkActions.submitGrade,
    thunkActions.cancelGrading, thunkActions.stopGrading,
    thunkActions.startGrading, thunkActions.loadSelectionForReview,
    thunkActions.loadPrev, thunkActions.loadNext, thunkActions.fetchNeighbor,
    thunkActions.prefetchPrev, thunkActions.prefetchNext;
  unfold requests.submitGrade, requests.setLock, requests.fetchSubmission,
    requests.fetchSubmissionStatus, requests.fetchSubmissionResponse, issue;
  unfold resume, mbind, M_bind, mret, M_ret, getState; cbn.

(** Splits a goal about the callbacks of a trace into its cases: each
    request, each way it can end, each value of a test on the store. *)
Ltac explore :=
  repeat first
    [ progress cbn
    | match goal with
      | |- _ ∧ _ => split
      | |- Forall _ [] => constructor
      | |- Forall _ (_ :: _) => constructor
      | |- ∀ _ : Outcome, _ => intros [?|?]
      | |- ∀ _, _ => intro
      | |- context [if ?b then _ else _] => destruct b
      | |- _ = _ => reflexivity
      | |- True => exact I
      end ].

Section Footprints.
Context `{store : selectors.Store}.
Import selectors thunkActions.

Lemma confined_nil (n : nat) (allowed : Event -> bool) : confined n allowed [].
Proof. destruct n; split; constructor. Qed.

Lemma confined_app (n : nat) (allowed : Event -> bool) (t1 t2 : list Effect) :
  confined n allowed t1 -> confined n allowed t2 -> confined n allowed (t1 ++ t2).
Proof.
  destruct n; cbn; intros [Ha1 Hp1] [Ha2 Hp2]; (split; [by apply Forall_app|]);
    unfold pending in *; rewrite omap_app.
  - by rewrite Hp1, Hp2.
  - by apply Forall_app.
Qed.

Lemma confined_dispatched (n : nat) (allowed : Event -> bool) (a : Action) :
  allowed (EvAction a) = true -> confined n allowed [Dispatched a].
Proof. intros Ha. destruct n; (split; [by repeat constructor | by cbn]). Qed.

Lemma confined_mono (n : nat) (allowed : Event -> bool) (tr : list Effect) :
  confined n allowed tr -> confined (S n) allowed tr.
Proof.
  revert tr. induction n as [|n IH]; intros tr [Ha Hp]; (split; [done|]).
  - rewrite Hp. constructor.
  - eapply Forall_impl; [exact Hp|]. cbn beta. intros r Hr o s. apply IH, Hr.
Qed.

Lemma failure_silent_no_request (n : nat) (tr : list Effect) :
  pending tr = [] -> failure_silent n tr.
Proof. intros Hp. destruct n; cbn; rewrite Hp; constructor. Qed.

(** X1: [prefetchNext] and [prefetchPrev] test nothing: in every state,
    whether or not the neighbour exists, each leaves the store alone and
    issues one response-only fetch under its own request key, for the id its
    selector gives at the call.  A successful response is stored by one
    [preloadNext] ([preloadPrev]) action and starts no request; a failure
    does nothing. *)
Theorem X1_prefetch_unguarded (s : State) :
  (∃ r,
     run (prefetchNext tt) s = (s, [Issued r])
     ∧ call_of r = CallFetchSubmissionResponse RequestKeys.prefetchNext
                     (grading_next_submissionUUID s)
     ∧ ∀ (o : Outcome) (s' : State),
         resume r o s'
         = match o with
           | Succeeded response =>
               (tt, reducer s' (PreloadNext response), [Dispatched (PreloadNext response)])
           | Failed _ => (tt, s', [])
           end)
  ∧ (∃ r,
     run (prefetchPrev tt) s = (s, [Issued r])
     ∧ call_of r = CallFetchSubmissionResponse RequestKeys.prefetchPrev
                     (grading_prev_submissionUUID s)
     ∧ ∀ (o : Outcome) (s' : State),
         resume r o s'
         = match o with
           | Succeeded response =>
               (tt, reducer s' (PreloadPrev response), [Dispatched (PreloadPrev response)])
           | Failed _ => (tt, s', [])
           end).
Proof.
  split; (eexists; split; [reflexivity|]); (split; [reflexivity|]);
    intros [response|error] s'; reflexivity.
Qed.

(** X2: whatever the store and however its requests end, [loadNext] only ever
    dispatches [loadNext] and [preloadNext] and only ever requests a status
    fetch and a response fetch keyed [prefetchNext]; [loadPrev] likewise with
    the "previous" actions and key.  Neither touches a lock, submits a grade
    or changes a visibility flag, and after two rounds of responses no
    request of theirs is left. *)
Theorem X2_navigation_footprint (s : State) :
  confined 2 next_navigation_event (run (loadNext tt) s).2
  ∧ confined 2 prev_navigation_event (run (loadPrev tt) s).2.
Proof. unfold_thunks. explore. Qed.

(** X3: [loadSelectionForReview], for any list of ids, only ever dispatches
    [updateSelection], [loadSubmission], [setShowReview(true)] and the two
    preloads, and only ever requests the full fetch and response fetches; it
    never leaves review mode, never touches a lock and never submits, and
    after two rounds of responses no request of it is left. *)
Theorem X3_review_footprint (submissionUUIDs : list JsVal) (s : State) :
  confined 2 review_event (run (loadSelectionForReview submissionUUIDs) s).2.
Proof. unfold_thunks. explore. Qed.

(** X4: the grading thunks keep to their own requests and actions.
    [startGrading] only ever asks for the lock with value [true] and
    dispatches [setShowRubric(true)] and [startGrading]; [cancelGrading] only
    ever asks for it with value [false] and dispatches [stopGrading];
    [stopGrading] requests nothing; [submitGrade] only ever dispatches
    [setShowValidation] and [completeGrading] and requests the submit.  None
    of them fetches or moves in the queue, and one round of responses ends
    them. *)
Theorem X4_grading_footprint (s : State) :
  confined 1 (grading_event Export_startGrading) (run (startGrading tt) s).2
  ∧ confined 1 (grading_event Export_cancelGrading) (run (cancelGrading tt) s).2
  ∧ confined 0 (grading_event Export_stopGrading) (run (stopGrading tt) s).2
  ∧ confined 1 (grading_event Export_submitGrade) (run (submitGrade tt) s).2.
Proof. unfold_thunks. explore. Qed.


(** The two rounds of X2 are needed: with a next neighbour at the call, one
    round of responses leaves the prefetch waiting. *)
Lemma loadNext_needs_second_round (s : State) :
  grading_next_doesExist s = true ->
  ¬ confined 1 next_navigation_event (run (loadNext tt) s).2.
Proof.
  intros Hnext [_ Hrounds]. revert Hrounds. unfold_thunks.
  rewrite Forall_singleton. intros Hround.
  destruct (Hround (Succeeded ∅) s) as [_ Hleft]. revert Hleft.
  cbn. rewrite Hnext. discriminate.
Qed.

(** X6: [fetchNeighbor] adds one round to what it is given.  If the status
    fetch is allowed, and the load action and the prefetch action, run in any
    state, stay within the allowed events and end within [n] rounds, then
    [fetchNeighbor] stays within them and ends within [n + 1] rounds, also
    when the status fetch fails. *)
Theorem X6_fetchNeighbor_adds_one_round
    (n : nat) (allowed : Event -> bool)
    (submissionUUID : JsVal) (loadAction : Response -> Dispatchable Thunk)
    (hasNeighbor : bool) (prefetchAction : unit -> Dispatchable Thunk) (s : State) :
  allowed (EvCall (CallFetchSubmissionStatus submissionUUID)) = true ->
  (∀ (payload : Response) (s' : State),
     confined n allowed (run (loadAction payload) s').2) ->
  (∀ s' : State, confined n allowed (run (prefetchAction tt) s').2) ->
  confined (S n) allowed
    (run (fetchNeighbor submissionUUID loadAction hasNeighbor prefetchAction) s).2.
Proof.
  intros Hstatus Hload Hprefetch.
  split; [by repeat constructor|].
  cbn. rewrite Forall_singleton. intros [response|error] s'.
  - cbn. rewrite bind_run. cbn. apply confined_app; [apply Hload|].
    destruct hasNeighbor; [|apply confined_nil].
    rewrite dispatch_run. apply Hprefetch.
  - apply confined_nil.
Qed.

Lemma spread_with_present (response : Response) (key : string) :
  truthy (prop response key) = true ->
  spread_with response key (prop response key) = response.
Proof.
  unfold prop, spread_with. destruct (response !! key) as [v|] eqn:Hkey; cbn.
  - intros _. by apply insert_id.
  - discriminate.
Qed.

(** X7: when the response to the lock request has grade data (a truthy
    [gradeData]), [startGrading] hands the response on as it is: the payload
    of the [startGrading] action is the response itself, and [emptyGrade] is
    not consulted. *)
Theorem X7_startGrading_passes_response_through
    (s s' : State) (response : Response) :
  truthy (prop response "gradeData") = true ->
  ∃ onSuccess,
    run (startGrading tt) s
    = (s, [Issued (SetLock true (grading_selected_submissionUUID s) onSuccess)])
    ∧ onSuccess response s'
      = (tt, reducer (reducer s' (SetShowRubric true)) (StartGrading response),
         [Dispatched (SetShowRubric true); Dispatched (StartGrading response)]).
Proof.
  intros Htruthy. eexists. split; [reflexivity|].
  unfold_thunks. rewrite Htruthy. cbn.
  by rewrite (spread_with_present response "gradeData" Htruthy).
Qed.

(** X8: with the empty list, a successful fetch still runs the whole
    callback: the selection becomes empty, a submission whose
    [submissionUUID] is [undefined] is loaded, and the application enters
    review mode; the prefetches follow under their usual tests. *)
Theorem X8_empty_selection_enters_review (s : State) :
  ∃ onSuccess,
    run (loadSelectionForReview []) s
    = (s, [Issued (FetchSubmission JUndefined onSuccess)])
    ∧ ∀ (response : Response) (s' : State),
        let loaded := spread_with response "submissionUUID" JUndefined in
        let s3 := reducer (reducer (reducer s' (UpdateSelection []))
                                   (LoadSubmission loaded))
                          (SetShowReview true) in
        (onSuccess response s').1.2 = s3
        ∧ dispatched (onSuccess response s').2
          = [UpdateSelection []; LoadSubmission loaded; SetShowReview true]
        ∧ calls (onSuccess response s').2
          = (if grading_next_doesExist s3
             then [CallFetchSubmissionResponse RequestKeys.prefetchNext
                     (grading_next_submissionUUID s3)]
             else [])
            ++ (if grading_prev_doesExist s3
                then [CallFetchSubmissionResponse RequestKeys.prefetchPrev
                        (grading_prev_submissionUUID s3)]
                else [])
        ∧ loaded !! "submissionUUID" = Some JUndefined.
Proof.
  eexists. split; [reflexivity|].
  intros response s' loaded s3. subst loaded s3. unfold_thunks.
  set (s3 := reducer _ (SetShowReview true)).
  destruct (grading_next_doesExist s3), (grading_prev_doesExist s3);
    repeat split; apply lookup_insert_eq.
Qed.

(** X9: [loadNext] has no guard against a request in flight.  Called again
    before the first status fetch has answered, it issues the same fetch
    again; when both answer, the load action is dispatched twice, both times
    for the id that was next at the calls. *)
Theorem X9_loadNext_twice_loads_twice
    (s : State) (response1 response2 : Response) :
  let target := grading_next_submissionUUID s in
  ∃ onSuccess1 onSuccess2,
    run (loadNext tt) s = (s, [Issued (FetchSubmissionStatus target onSuccess1)])
    ∧ run (loadNext tt) (run (loadNext tt) s).1
      = (s, [Issued (FetchSubmissionStatus target onSuccess2)])
    ∧ dispatched ((onSuccess1 response1 s).2
                  ++ (onSuccess2 response2 (onSuccess1 response1 s).1.2).2)
      = [LoadNext (spread_with response1 "submissionUUID" target);
         LoadNext (spread_with response2 "submissionUUID" target)].
Proof.
  intros target. do 2 eexists. split; [reflexivity|]. split; [reflexivity|].
  subst target. unfold_thunks.
  destruct (grading_next_doesExist s); reflexivity.
Qed.

(** X10: every exported thunk issues at most one request when it is called,
    and the callbacks of that request, however it ends, issue at most two
    more (the two prefetches of [loadSelectionForReview]); the navigation
    thunks issue at most one more, the grading thunks none. *)
Theorem X10_requests_are_bounded (x : Exported) (s : State) :
  let further :=
    match x with
    | Export_loadSelectionForReview _ => 2
    | Export_loadNext | Export_loadPrev => 1
    | _ => 0
    end in
  length (calls (run (default_export x) s).2) ≤ 1
  ∧ Forall (fun r => ∀ (o : Outcome) (s' : State),
              length (calls (resume r o s').2) ≤ further)
           (pending (run (default_export x) s).2).
Proof.
  destruct x; unfold_thunks; explore; lia.
Qed.

End Footprints.

(** [fetchNeighbor] as [loadNext] calls it, on a queue of three. *)
Lemma X6_fetchNeighbor_witness :
  confined (store := QueueStore.store) 2 next_navigation_event
    (run (store := QueueStore.store)
       (thunkActions.fetchNeighbor (JStr "B") actions.grading_loadNext true thunkActions.prefetchNext)
       QueueStore.first_of_three).2.
Proof.
  apply (X6_fetchNeighbor_adds_one_round (store := QueueStore.store)
           1 next_navigation_event (JStr "B") actions.grading_loadNext true
           thunkActions.prefetchNext QueueStore.first_of_three).
  - reflexivity.
  - intros payload s'. apply confined_dispatched. reflexivity.
  - intros s'. unfold_thunks. explore.
Defined.

(** A lock response whose grade data is the empty object. *)
Lemma X7_startGrading_witness :
  truthy (prop {["gradeData" := JObj []]} "gradeData") = true
  ∧ ∃ onSuccess,
      run (store := QueueStore.store) (thunkActions.startGrading tt) QueueStore.first_of_two
      = (QueueStore.first_of_two, [Issued (SetLock true (JStr "A") onSuccess)])
      ∧ onSuccess {["gradeData" := JObj []]} QueueStore.first_of_two
        = (tt,
           QueueStore.queue_reducer
             (QueueStore.queue_reducer QueueStore.first_of_two (SetShowRubric true))
             (StartGrading {["gradeData" := JObj []]}),
           [Dispatched (SetShowRubric true);
            Dispatched (StartGrading {["gradeData" := JObj []]})]).
Proof.
  split; [reflexivity|].
  apply (X7_startGrading_passes_response_through (store := QueueStore.store)
           QueueStore.first_of_two QueueStore.first_of_two
           {["gradeData" := JObj []]}).
  reflexivity.
Defined.

